(** * Health-check probe ([health-check.py]): a shallow embedding

  The repository is one AWS Lambda handler, [lambda_handler], that probes
  an HTTP endpoint and a DynamoDB table, pushes one CloudWatch metric per
  probed service and returns a JSON summary.

  The handler talks to five collaborators it does not implement: the
  clock ([datetime.now]), the urllib3 pool ([http.request]), the boto3
  client factory ([boto3.client]), the DynamoDB client
  ([describe_table]) and the CloudWatch client ([put_metric_data]).
  They are modelled as a [World]: a state of the outside and one
  state-passing oracle per collaborator, each free to answer or to
  raise.  The handler itself is written in a small state-and-exception
  monad [M] whose state holds the world, the log of the calls made so
  far, and the one mutable local of the handler, [health_status]. *)

From Stdlib Require Import String Ascii List ZArith NArith Lia Bool.
From Stdlib Require Import DecimalString.
Import ListNotations.
Open Scope string_scope.
Open Scope Z_scope.
Set Warnings "-register-all".

(** ** Python values *)

(** The values the handler builds: [int], [str] and [dict] with [str]
  keys.  A dict keeps its items in insertion order (Python >= 3.7), so
  it is an association list; [str] is a list of code points below 256. *)
Inductive pyval : Type :=
| PInt (z : Z)
| PStr (s : string)
| PDict (items : list (string * pyval)).

(** A raised exception: its class name and its message. *)
Record exn : Type := mkExn { exc_type : string; exc_msg : string }.

Definition KeyError (k : string) : exn := mkExn "KeyError" k.
Definition TypeError (m : string) : exn := mkExn "TypeError" m.
Definition UnboundLocalError (v : string) : exn := mkExn "UnboundLocalError" v.

(** Outcome of running Python code: a value, or a propagating exception. *)
Inductive result (A : Type) : Type :=
| Ok (a : A)
| Raised (e : exn).
Arguments Ok {A} a.
Arguments Raised {A} e.

(** ** Dict primitives *)

Module Dict.

Definition t : Type := list (string * pyval).

(** [d[k]] as a lookup. *)
Fixpoint get (d : t) (k : string) : option pyval :=
  match d with
  | [] => None
  | (k', v) :: rest => if String.eqb k' k then Some v else get rest k
  end.

(** [d[k] = v]: an existing key keeps its position, a new key goes last. *)
Fixpoint set (d : t) (k : string) (v : pyval) : t :=
  match d with
  | [] => [(k, v)]
  | (k', v') :: rest =>
      if String.eqb k' k then (k', v) :: rest else (k', v') :: set rest k v
  end.

(** [d.keys()], in iteration order. *)
Definition keys (d : t) : list string := map fst d.

(** [dict(pairs)]: a repeated key keeps its first position and takes its
  last value. *)
Definition of_pairs (pairs : list (string * pyval)) : t :=
  fold_left (fun d kv => set d (fst kv) (snd kv)) pairs [].

End Dict.

(** [v[k]]: subscript of a value by a [str] key.  An [int] has no
  subscript; a [str] takes integer indices only. *)
Definition getitem (v : pyval) (k : string) : result pyval :=
  match v with
  | PDict d =>
      match Dict.get d k with
      | Some x => Ok x
      | None => Raised (KeyError k)
      end
  | PInt _ => Raised (TypeError "'int' object is not subscriptable")
  | PStr _ => Raised (TypeError "string indices must be integers")
  end.

(** [v[k] = x]: item assignment, returning the updated object. *)
Definition setitem (v : pyval) (k : string) (x : pyval) : result pyval :=
  match v with
  | PDict d => Ok (PDict (Dict.set d k x))
  | PInt _ =>
      Raised (TypeError "'int' object does not support item assignment")
  | PStr _ =>
      Raised (TypeError "'str' object does not support item assignment")
  end.

(** [v.items()]. *)
Definition items (v : pyval) : result (list (string * pyval)) :=
  match v with
  | PDict d => Ok d
  | PInt _ =>
      Raised (mkExn "AttributeError" "'int' object has no attribute 'items'")
  | PStr _ =>
      Raised (mkExn "AttributeError" "'str' object has no attribute 'items'")
  end.

(** [v == s] for a string literal [s]: values of another type are unequal. *)
Definition py_eq_str (v : pyval) (s : string) : bool :=
  match v with
  | PStr s' => String.eqb s' s
  | _ => false
  end.

(** ** [datetime] and [isoformat] *)

Record datetime : Type := mkDatetime {
  year : N; month : N; day : N;
  hour : N; minute : N; second : N; microsecond : N
}.

Fixpoint zeros (n : nat) : string :=
  match n with
  | O => EmptyString
  | S n' => String "0" (zeros n')
  end.

(** [%0<width>d]. *)
Definition pad (width : nat) (n : N) : string :=
  let digits := NilZero.string_of_uint (N.to_uint n) in
  zeros (width - String.length digits) ++ digits.

(** [datetime.isoformat()] of a naive datetime: the fraction is printed
  only when [microsecond] is not zero. *)
Definition isoformat (d : datetime) : string :=
  pad 4 (year d) ++ "-" ++ pad 2 (month d) ++ "-" ++ pad 2 (day d) ++ "T" ++
  pad 2 (hour d) ++ ":" ++ pad 2 (minute d) ++ ":" ++ pad 2 (second d) ++
  (if N.eqb (microsecond d) 0 then EmptyString
   else "." ++ pad 6 (microsecond d)).

(** ** [json.dumps] *)

Module Json.

(** The double quote, code point 34. *)
Definition dquote : ascii := "034"%char.

Definition hex_digit (n : N) : ascii :=
  match n with
  | 0 => "0" | 1 => "1" | 2 => "2" | 3 => "3" | 4 => "4" | 5 => "5"
  | 6 => "6" | 7 => "7" | 8 => "8" | 9 => "9" | 10 => "a" | 11 => "b"
  | 12 => "c" | 13 => "d" | 14 => "e" | _ => "f"
  end%N%char.

(** The replacement [json.encoder] makes for one character with
    [ensure_ascii=True]: the short escapes, [\u00XX] for everything
    else outside [' '..'~'], the character itself otherwise. *)
Definition escape_char (c : ascii) : string :=
  let n := N_of_ascii c in
  if N.eqb n 34 then String "\" (String dquote EmptyString)
  else if N.eqb n 92 then "\\"
  else if N.eqb n 10 then "\n"
  else if N.eqb n 13 then "\r"
  else if N.eqb n 9 then "\t"
  else if N.eqb n 12 then "\f"
  else if N.eqb n 8 then "\b"
  else if (N.ltb n 32 || N.ltb 126 n)%bool then
    String "\" (String "u" (String "0" (String "0"
      (String (hex_digit (n / 16)) (String (hex_digit (n mod 16)) EmptyString)))))
  else String c EmptyString.

Fixpoint escape (s : string) : string :=
  match s with
  | EmptyString => EmptyString
  | String c rest => escape_char c ++ escape rest
  end.

(** [py_encode_basestring_ascii]. *)
Definition encode_str (s : string) : string :=
  String dquote (escape s ++ String dquote EmptyString).

Definition encode_int (z : Z) : string :=
  NilZero.string_of_int (Z.to_int z).

(** [json.dumps(v)] with the default separators [", "] and [": "]. *)
Fixpoint dumps (v : pyval) : string :=
  match v with
  | PInt z => encode_int z
  | PStr s => encode_str s
  | PDict d =>
      let fix members (l : list (string * pyval)) : string :=
        match l with
        | [] => EmptyString
        | [(k, x)] => encode_str k ++ ": " ++ dumps x
        | (k, x) :: rest => encode_str k ++ ": " ++ dumps x ++ ", " ++ members rest
        end in
      "{" ++ members d ++ "}"
  end.

(** *** Reading a report back

  [loads] is [json.loads] on the documents [dumps] writes: objects,
  strings and integers, with optional white space between tokens.  The
  handler does not call it; it is the decoder a consumer of the returned
  body applies, and the properties of the body after parsing are stated
  with it. *)

Definition is_ws (c : ascii) : bool :=
  let n := N_of_ascii c in
  (N.eqb n 32 || N.eqb n 9 || N.eqb n 10 || N.eqb n 13)%bool.

Fixpoint skip_ws (s : string) : string :=
  match s with
  | String c rest => if is_ws c then skip_ws rest else s
  | EmptyString => s
  end.

Definition hex_value (c : ascii) : option N :=
  let n := N_of_ascii c in
  if (N.leb 48 n && N.leb n 57)%bool then Some (n - 48)%N
  else if (N.leb 97 n && N.leb n 102)%bool then Some (n - 87)%N
  else if (N.leb 65 n && N.leb n 70)%bool then Some (n - 55)%N
  else None.

(** The character a two-character escape stands for. *)
Definition unescape_char (c : ascii) : option ascii :=
  let n := N_of_ascii c in
  if N.eqb n 34 then Some dquote
  else if N.eqb n 92 then Some "\"%char
  else if N.eqb n 47 then Some "/"%char
  else if N.eqb n 98 then Some (ascii_of_N 8)
  else if N.eqb n 102 then Some (ascii_of_N 12)
  else if N.eqb n 110 then Some (ascii_of_N 10)
  else if N.eqb n 114 then Some (ascii_of_N 13)
  else if N.eqb n 116 then Some (ascii_of_N 9)
  else None.

Definition cons_char (c : ascii) (r : option (string * string))
  : option (string * string) :=
  match r with
  | Some (s, rest) => Some (String c s, rest)
  | None => None
  end.

(** The characters of a string literal after its opening quote, up to
  the closing one, and the input left.  Raw control characters are
  refused (strict mode); a [\uXXXX] above 255 is outside the strings
  modelled here and is refused too. *)
Fixpoint string_body (s : string) : option (string * string) :=
  match s with
  | EmptyString => None
  | String c rest =>
      if Ascii.eqb c dquote then Some (EmptyString, rest)
      else if Ascii.eqb c "\" then
        match rest with
        | EmptyString => None
        | String e rest1 =>
            if Ascii.eqb e "u" then
              match rest1 with
              | String h3 (String h2 (String h1 (String h0 rest2))) =>
                  match hex_value h3, hex_value h2, hex_value h1, hex_value h0 with
                  | Some a, Some b, Some c1, Some d =>
                      let code := (4096 * a + 256 * b + 16 * c1 + d)%N in
                      if N.ltb code 256
                      then cons_char (ascii_of_N code) (string_body rest2)
                      else None
                  | _, _, _, _ => None
                  end
              | _ => None
              end
            else
              match unescape_char e with
              | Some c' => cons_char c' (string_body rest1)
              | None => None
              end
        end
      else if N.ltb (N_of_ascii c) 32 then None
      else cons_char c (string_body rest)
  end.

Definition is_digit (c : ascii) : bool :=
  (N.leb 48 (N_of_ascii c) && N.leb (N_of_ascii c) 57)%bool.

(** The longest run of digits at the head of [s], read in base ten on top
  of [acc]. *)
Fixpoint digits (acc : N) (s : string) : N * string :=
  match s with
  | String c rest =>
      if is_digit c then digits (10 * acc + (N_of_ascii c - 48))%N rest
      else (acc, s)
  | EmptyString => (acc, s)
  end.

(** [0] or a run of digits not starting with [0]. *)
Definition natural (s : string) : option (N * string) :=
  match s with
  | String c rest =>
      if Ascii.eqb c "0" then Some (0%N, rest)
      else if is_digit c then Some (digits 0 s)
      else None
  | EmptyString => None
  end.

Definition integer (s : string) : option (Z * string) :=
  match s with
  | String c rest =>
      if Ascii.eqb c "-" then
        match natural rest with
        | Some (n, rest') => Some (- Z.of_N n, rest')
        | None => None
        end
      else
        match natural s with
        | Some (n, rest') => Some (Z.of_N n, rest')
        | None => None
        end
  | EmptyString => None
  end.

(** One value, and the members of an object after its opening brace (at
  least one member, in document order).  [fuel] bounds the nesting and
  the number of members; [loads] gives the length of the document, which
  is enough. *)
Fixpoint value (fuel : nat) (s : string) : option (pyval * string) :=
  match fuel with
  | O => None
  | S fuel' =>
      match skip_ws s with
      | EmptyString => None
      | String c rest =>
          if Ascii.eqb c dquote then
            match string_body rest with
            | Some (str, rest') => Some (PStr str, rest')
            | None => None
            end
          else if Ascii.eqb c "{" then
            match skip_ws rest with
            | EmptyString => None
            | String c' rest' =>
                if Ascii.eqb c' "}" then Some (PDict [], rest')
                else
                  match members fuel' rest with
                  | Some (d, rest'') => Some (PDict (Dict.of_pairs d), rest'')
                  | None => None
                  end
            end
          else
            match integer (String c rest) with
            | Some (z, rest') => Some (PInt z, rest')
            | None => None
            end
      end
  end
with members (fuel : nat) (s : string)
  : option (list (string * pyval) * string) :=
  match fuel with
  | O => None
  | S fuel' =>
      match skip_ws s with
      | EmptyString => None
      | String q rest =>
          if Ascii.eqb q dquote then
            match string_body rest with
            | None => None
            | Some (k, rest1) =>
                match skip_ws rest1 with
                | EmptyString => None
                | String colon rest2 =>
                    if Ascii.eqb colon ":" then
                      match value fuel' rest2 with
                      | None => None
                      | Some (v, rest3) =>
                          match skip_ws rest3 with
                          | EmptyString => None
                          | String sep rest4 =>
                              if Ascii.eqb sep "}" then Some ([(k, v)], rest4)
                              else if Ascii.eqb sep "," then
                                match members fuel' rest4 with
                                | Some (d, rest5) => Some ((k, v) :: d, rest5)
                                | None => None
                                end
                              else None
                          end
                      end
                    else None
                end
            end
          else None
      end
  end.

(** [json.loads(s)]: one value and nothing but white space after it. *)
Definition loads (s : string) : option pyval :=
  match value (String.length s) s with
  | Some (v, rest) =>
      match skip_ws rest with
      | EmptyString => Some v
      | String _ _ => None
      end
  | None => None
  end.

End Json.

(** ** The outside world *)

(** What [http.request] hands back: the handler reads only [status]. *)
Record http_response : Type := mkResponse { status : Z }.

(** One element of [MetricData].  [Value] is an integer: the handler
  passes the literals [1] and [0]. *)
Record metric_datum : Type := mkDatum {
  MetricName : string;
  Value : Z;
  Unit : string;
  Timestamp : datetime
}.

(** The collaborators.  [W] is the state of everything outside the
  handler, [Client] the type of boto3 client objects.  Every oracle
  takes the state of the world and returns its answer with the next
  state; an answer [inl e] is the call raising [e]. *)
Record World (W Client : Type) : Type := mkWorld {
  (** [datetime.now()] *)
  datetime_now : W -> datetime * W;
  (** [http.request(method, url)] *)
  http_request : string -> string -> W -> (exn + http_response) * W;
  (** [boto3.client(service)] *)
  boto3_client : string -> W -> (exn + Client) * W;
  (** [client.describe_table(TableName=...)] *)
  describe_table : Client -> string -> W -> (exn + unit) * W;
  (** [client.put_metric_data(Namespace=..., MetricData=...)] *)
  put_metric_data :
    Client -> string -> list metric_datum -> W -> (exn + unit) * W
}.
Arguments datetime_now {W Client} _ _.
Arguments http_request {W Client} _ _ _ _.
Arguments boto3_client {W Client} _ _ _.
Arguments describe_table {W Client} _ _ _ _.
Arguments put_metric_data {W Client} _ _ _ _ _.

(** The log of the calls the handler made, each with its outcome. *)
Inductive log_entry (Client : Type) : Type :=
| EvNow (d : datetime)
| EvHttpRequest (method url : string) (r : exn + http_response)
| EvBoto3Client (service : string) (r : exn + Client)
| EvDescribeTable (c : Client) (table : string) (r : exn + unit)
| EvPutMetricData (c : Client) (namespace : string)
    (data : list metric_datum) (r : exn + unit).
Arguments EvNow {Client} d.
Arguments EvHttpRequest {Client} method url r.
Arguments EvBoto3Client {Client} service r.
Arguments EvDescribeTable {Client} c table r.
Arguments EvPutMetricData {Client} c namespace data r.

(** ** The monad of handler code *)

(** The state threaded through the handler: the world, the calls made so
  far (oldest first) and the local variable [health_status], unbound
  until its assignment. *)
Record state (W Client : Type) : Type := mkState {
  world : W;
  trace : list (log_entry Client);
  health_status : option pyval
}.
Arguments mkState {W Client} _ _ _.
Arguments world {W Client} _.
Arguments trace {W Client} _.
Arguments health_status {W Client} _.

Section Monad.

Context {W Client : Type}.

Definition M (A : Type) : Type :=
  state W Client -> result A * state W Client.

Definition ret {A} (a : A) : M A := fun s => (Ok a, s).

Definition raise {A} (e : exn) : M A := fun s => (Raised e, s).

(** Sequencing: an exception skips the rest, the state reached stays. *)
Definition bind {A B} (m : M A) (k : A -> M B) : M B :=
  fun s =>
    match m s with
    | (Ok a, s') => k a s'
    | (Raised e, s') => (Raised e, s')
    end.

(** [try: body  except: handler], with a bare [except] that takes every
    exception. *)
Definition try_except {A} (body handler : M A) : M A :=
  fun s =>
    match body s with
    | (Ok a, s') => (Ok a, s')
    | (Raised _, s') => handler s'
    end.

Definition lift {A} (r : result A) : M A := fun s => (r, s).

(** A call that may raise: [inl e] propagates as an exception. *)
Definition call {A} (ev : (exn + A) -> log_entry Client)
    (oracle : W -> (exn + A) * W) : M A :=
  fun s =>
    let (r, w') := oracle (world s) in
    let s' := mkState w' (trace s ++ [ev r]) (health_status s) in
    match r with
    | inr a => (Ok a, s')
    | inl e => (Raised e, s')
    end.

(** Reading the local [health_status]. *)
Definition load_health_status : M pyval :=
  fun s =>
    match health_status s with
    | Some v => (Ok v, s)
    | None => (Raised (UnboundLocalError "health_status"), s)
    end.

Definition store_health_status (v : pyval) : M unit :=
  fun s => (Ok tt, mkState (world s) (trace s) (Some v)).

(** [for x in l: body x]. *)
Fixpoint for_each {A} (l : list A) (body : A -> M unit) : M unit :=
  match l with
  | [] => ret tt
  | x :: rest => bind (body x) (fun _ => for_each rest body)
  end.

End Monad.

Declare Scope py_scope.
Delimit Scope py_scope with py.
Notation "x <- m ;; k" := (bind m (fun x => k))
  (at level 61, m at next level, right associativity) : py_scope.
Notation "m ;; k" := (bind m (fun _ => k))
  (at level 61, right associativity) : py_scope.
Open Scope py_scope.

(** ** The handler *)

Definition health_url : string :=
  "https://y06kgtou3i.execute-api.eu-west-2.amazonaws.com/prod/health".

Section Handler.

Context {W Client : Type}.
Variable env : World W Client.
(** The module-level [cloudwatch = boto3.client('cloudwatch')]. *)
Variable cloudwatch : Client.
Local Abbreviation M := (@M W Client).

(** [datetime.now()]. *)
Definition now : M datetime :=
  fun s =>
    let (d, w') := datetime_now env (world s) in
    (Ok d, mkState w' (trace s ++ [EvNow d]) (health_status s)).

(** [health_status['services'][service] = status]: the inner dict is
    the object stored under ['services'], so the update is seen through
    [health_status]. *)
Definition set_service (service status : string) : M unit :=
  hs <- load_health_status ;;
  services <- lift (getitem hs "services") ;;
  services' <- lift (setitem services service (PStr status)) ;;
  hs' <- lift (setitem hs "services" services') ;;
  store_health_status hs'.

(** The body of the metrics loop for one [(service, status)] item: the
  arguments are evaluated first, the clock reading among them, then the
  call is made and its answer dropped. *)
Definition emit_metric (item : string * pyval) : M unit :=
  let (service, status) := item in
  t <- now ;;
  let data := [mkDatum (service ++ "_health")
                       (if py_eq_str status "healthy" then 1 else 0)
                       "None" t] in
  call (EvPutMetricData cloudwatch "Bvester/Health" data)
       (put_metric_data env cloudwatch "Bvester/Health" data) ;;
  ret tt.

Definition lambda_handler {Event Context : Type}
    (event : Event) (context : Context) : M pyval :=
  t0 <- now ;;
  store_health_status
    (PDict [("timestamp", PStr (isoformat t0)); ("services", PDict [])]) ;;
  (* Check API Gateway *)
  try_except
    (resp <- call (EvHttpRequest "GET" health_url)
                  (http_request env "GET" health_url) ;;
     set_service "api_gateway"
       (if status resp =? 200 then "healthy" else "degraded"))
    (set_service "api_gateway" "unhealthy") ;;
  (* Check DynamoDB *)
  dynamodb <- call (EvBoto3Client "dynamodb") (boto3_client env "dynamodb") ;;
  try_except
    (call (EvDescribeTable dynamodb "bvester-users")
          (describe_table env dynamodb "bvester-users") ;;
     set_service "dynamodb" "healthy")
    (set_service "dynamodb" "unhealthy") ;;
  (* Send metrics to CloudWatch *)
  hs <- load_health_status ;;
  services <- lift (getitem hs "services") ;;
  pairs <- lift (items services) ;;
  for_each pairs emit_metric ;;
  hs <- load_health_status ;;
  ret (PDict [("statusCode", PInt 200); ("body", PStr (Json.dumps hs))]).

(** One invocation, from a fresh frame: outcome and final state. *)
Definition invoke {Event Context : Type} (event : Event) (context : Context)
    (w : W) : result pyval * state W Client :=
  lambda_handler event context (mkState w [] None).

End Handler.

(** ** Observations on a run *)

Section Observations.

Context {W Client : Type}.

(** The [services] mapping of the report held by [health_status]. *)
Definition services_of (s : state W Client) : Dict.t :=
  match health_status s with
  | Some (PDict d) =>
      match Dict.get d "services" with
      | Some (PDict sv) => sv
      | _ => []
      end
  | _ => []
  end.

(** The entry for [service] in that mapping. *)
Definition reported (s : state W Client) (service : string) : option pyval :=
  Dict.get (services_of s) service.

Definition is_put (e : log_entry Client) : bool :=
  match e with
  | EvPutMetricData _ _ _ _ => true
  | _ => false
  end.

(** The metric-emission calls of a log, in the order they were made. *)
Definition metric_calls (tr : list (log_entry Client)) : list (log_entry Client) :=
  filter is_put tr.

(** The calls that leave the process, without their outcomes. *)
Inductive outbound : Type :=
| OutHttp (method url : string)
| OutDescribeTable (table : string)
| OutMetric (namespace : string) (names : list string).

Definition outbound_of (e : log_entry Client) : list outbound :=
  match e with
  | EvHttpRequest m u _ => [OutHttp m u]
  | EvDescribeTable _ t _ => [OutDescribeTable t]
  | EvPutMetricData _ ns data _ => [OutMetric ns (map MetricName data)]
  | EvNow _ | EvBoto3Client _ _ => []
  end.

Definition outbound_calls (tr : list (log_entry Client)) : list outbound :=
  flat_map outbound_of tr.

(** The exception a logged call ended with, if it raised. *)
Definition raised_by (e : log_entry Client) : option exn :=
  match e with
  | EvHttpRequest _ _ (inl x) | EvBoto3Client _ (inl x)
  | EvDescribeTable _ _ (inl x) | EvPutMetricData _ _ _ (inl x) => Some x
  | _ => None
  end.

Definition is_http (e : log_entry Client) : bool :=
  match e with
  | EvHttpRequest _ _ _ => true
  | _ => false
  end.


(** The events that belong to one of the two service checks. *)
Definition is_check (e : log_entry Client) : bool :=
  match e with
  | EvHttpRequest _ _ _ | EvDescribeTable _ _ _ => true
  | _ => false
  end.

(** [emits cw item e]: the log entry [e] is the metric call the loop makes
  for the item [(service, status)] of the [services] mapping. *)
Definition emits (cw : Client) (item : string * pyval) (e : log_entry Client)
  : Prop :=
  exists v t r,
    e = EvPutMetricData cw "Bvester/Health"
          [mkDatum (fst item ++ "_health") v "None" t] r /\
    ((snd item = PStr "healthy" /\ v = 1) \/
     (snd item <> PStr "healthy" /\ v = 0)).

(** Every datum of a metric call carries the value 0 or 1. *)
Definition binary_valued (e : log_entry Client) : Prop :=
  match e with
  | EvPutMetricData _ _ data _ =>
      Forall (fun d => Value d = 0 \/ Value d = 1) data
  | _ => True
  end.

End Observations.

(** The outbound calls of a complete run, in the order of the source. *)
Definition call_order : list outbound :=
  [OutHttp "GET" health_url;
   OutDescribeTable "bvester-users";
   OutMetric "Bvester/Health" ["api_gateway_health"];
   OutMetric "Bvester/Health" ["dynamodb_health"]].

(** The three statuses a report can carry. *)
Definition is_status (v : pyval) : Prop :=
  v = PStr "healthy" \/ v = PStr "degraded" \/ v = PStr "unhealthy".

(** The report with both entries filled in. *)
Definition full_report (ts a d : string) : pyval :=
  PDict [("timestamp", PStr ts);
         ("services", PDict [("api_gateway", PStr a); ("dynamodb", PStr d)])].

(** ** A scripted world

  A concrete outside for running the handler: the replies of the three
  services are fixed in advance, the clock advances one second per
  reading, and metric calls are answered by their rank. *)

Module Scripted.

Record script : Type := mkScript {
  http_reply : exn + http_response;
  client_reply : exn + string;
  describe_reply : exn + unit;
  put_reply : nat -> exn + unit
}.

(** Clock readings and metric calls made so far. *)
Record counters : Type := mkCounters { ticks : N; puts : nat }.

Definition env (sc : script) : World counters string :=
  mkWorld counters string
    (fun w => (mkDatetime 2024 1 15 12 0 (ticks w) 0,
               mkCounters (ticks w + 1) (puts w)))
    (fun _ _ w => (http_reply sc, w))
    (fun _ w => (client_reply sc, w))
    (fun _ _ w => (describe_reply sc, w))
    (fun _ _ _ w => (put_reply sc (puts w), mkCounters (ticks w) (S (puts w)))).

Definition start : counters := mkCounters 0 0.

Definition timeout : exn := mkExn "MaxRetryError" "timed out".
Definition throttled : exn := mkExn "ClientError" "ThrottlingException".
Definition no_region : exn := mkExn "NoRegionError" "You must specify a region.".

(** Both dependencies up. *)
Definition all_up : script :=
  mkScript (inr (mkResponse 200)) (inr "dynamodb") (inr tt) (fun _ => inr tt).

(** The endpoint answers 503, the table is fine. *)
Definition gateway_503 : script :=
  mkScript (inr (mkResponse 503)) (inr "dynamodb") (inr tt) (fun _ => inr tt).

(** The endpoint times out, the table is fine. *)
Definition gateway_down : script :=
  mkScript (inl timeout) (inr "dynamodb") (inr tt) (fun _ => inr tt).

(** Both checks raise. *)
Definition all_down : script :=
  mkScript (inl timeout) (inr "dynamodb") (inl throttled) (fun _ => inr tt).

(** The DynamoDB client cannot be built. *)
Definition no_client : script :=
  mkScript (inr (mkResponse 200)) (inl no_region) (inr tt) (fun _ => inr tt).

(** The second metric call is throttled. *)
Definition metrics_down : script :=
  mkScript (inr (mkResponse 200)) (inr "dynamodb") (inr tt)
    (fun n => match n with O => inr tt | _ => inl throttled end).

Definition run (sc : script) : result pyval * state counters string :=
  invoke (env sc) "cloudwatch" (PDict []) tt start.

(** What a scripted run is expected to return, given the two statuses:
  the first clock reading is 12:00:00 on 2024-01-15. *)
Definition expected (a d : string) : pyval :=
  PDict [("statusCode", PInt 200);
         ("body", PStr (Json.dumps (full_report "2024-01-15T12:00:00" a d)))].

End Scripted.

(** ** The two check sections *)



(** ** The text of a report *)

(** [s] between double quotes, as it stands. *)
Definition quoted (s : string) : string :=
  String Json.dquote (s ++ String Json.dquote EmptyString).

(** The document a full report is written as when none of its strings
  needs an escape. *)
Definition report_text (ts a d : string) : string :=
  "{" ++ quoted "timestamp" ++ ": " ++ quoted ts ++ ", " ++
  quoted "services" ++ ": {" ++
  quoted "api_gateway" ++ ": " ++ quoted a ++ ", " ++
  quoted "dynamodb" ++ ": " ++ quoted d ++ "}}".

(** The characters [json.dumps] writes as they are. *)
Definition is_plain (c : ascii) : bool :=
  let n := N_of_ascii c in
  (N.leb 32 n && N.leb n 126 && negb (N.eqb n 34) && negb (N.eqb n 92))%bool.

Fixpoint all_plain (s : string) : bool :=
  match s with
  | EmptyString => true
  | String c rest => (is_plain c && all_plain rest)%bool
  end.

(** ** Sample data of scripted runs *)

Module Samples.

(** The second and third clock readings of a scripted run. *)
Definition second_reading : datetime := mkDatetime 2024 1 15 12 0 1 0.
Definition third_reading : datetime := mkDatetime 2024 1 15 12 0 2 0.

(** The two metric calls of a run with both dependencies up, the second
  one answered by [r]. *)
Definition api_gateway_metric : log_entry string :=
  EvPutMetricData "cloudwatch" "Bvester/Health"
    [mkDatum "api_gateway_health" 1 "None" second_reading] (inr tt).

Definition dynamodb_metric (r : exn + unit) : log_entry string :=
  EvPutMetricData "cloudwatch" "Bvester/Health"
    [mkDatum "dynamodb_health" 1 "None" third_reading] r.

(** The report held when the DynamoDB client could not be built: only
  [api_gateway] is recorded. *)
Definition partial_services : Dict.t := [("api_gateway", PStr "healthy")].

Definition partial_report : Dict.t :=
  [("timestamp", PStr "2024-01-15T12:00:00");
   ("services", PDict partial_services)].

End Samples.

(** * Properties of the handler *)

(** ** Stepping through a run *)

Ltac oracle :=
  match goal with
  | |- context [datetime_now ?e ?w] =>
      destruct (datetime_now e w) as [? ?] eqn:?
  | |- context [http_request ?e ?m ?u ?w] =>
      destruct (http_request e m u w) as [[?|[?]] ?] eqn:?
  | |- context [boto3_client ?e ?n ?w] =>
      destruct (boto3_client e n w) as [[?|?] ?] eqn:?
  | |- context [describe_table ?e ?c ?t ?w] =>
      destruct (describe_table e c t w) as [[?|[]] ?] eqn:?
  | |- context [put_metric_data ?e ?c ?n ?d ?w] =>
      destruct (put_metric_data e c n d w) as [[?|[]] ?] eqn:?
  | |- context [Z.eqb ?z 200] =>
      destruct (Z.eqb_spec z 200)
  end.

Ltac unfold_handler :=
  unfold invoke, lambda_handler, set_service, emit_metric, now, call,
    try_except, bind, ret, lift, load_health_status, store_health_status.

(** Runs the handler up to the metrics loop, which is left folded. *)
Ltac unfold_checks :=
  unfold invoke, lambda_handler, set_service, now, call,
    try_except, bind, ret, lift, load_health_status, store_health_status.
Ltac fold_step :=
  do 3 (unfold_checks; cbn -[for_each isoformat Json.dumps]; cbv beta).
Ltac run_checks := fold_step; repeat (oracle; fold_step).

(** Runs the handler symbolically: one goal per path through it. *)
Ltac step := do 3 (unfold_handler; cbn -[isoformat Json.dumps]; cbv beta).
Ltac run_handler := step; repeat (oracle; step).

(** ** [loads] after [dumps] *)

Lemma append_assoc (a b c : string) : (a ++ b) ++ c = a ++ (b ++ c).
Proof.
  induction a as [|x a IH]; simpl; [reflexivity | now rewrite IH].
Qed.

(** Whatever [escape_char] writes for a character, [string_body] reads
  back as that character. *)
Lemma string_body_escape_char (c : ascii) (tl : string) :
  Json.string_body (Json.escape_char c ++ tl)
  = Json.cons_char c (Json.string_body tl).
Proof.
  destruct c as [[] [] [] [] [] [] [] []]; reflexivity.
Qed.

Lemma string_body_escape (s rest : string) :
  Json.string_body (Json.escape s ++ String Json.dquote rest) = Some (s, rest).
Proof.
  induction s as [|c s IH].
  - reflexivity.
  - change (Json.escape (String c s)) with (Json.escape_char c ++ Json.escape s).
    rewrite append_assoc, string_body_escape_char, IH. reflexivity.
Qed.

(** An encoded string followed by [rest] decodes to the string and [rest]. *)
Lemma value_encode_str (fuel : nat) (s rest : string) :
  Json.value (S fuel) (Json.encode_str s ++ rest) = Some (PStr s, rest).
Proof.
  unfold Json.encode_str.
  change (String Json.dquote (Json.escape s ++ String Json.dquote EmptyString) ++ rest)
    with (String Json.dquote ((Json.escape s ++ String Json.dquote EmptyString) ++ rest)).
  rewrite append_assoc.
  change (String Json.dquote EmptyString ++ rest) with (String Json.dquote rest).
  cbn [Json.value Json.skip_ws].
  change (Json.is_ws Json.dquote) with false. cbv iota.
  change (Ascii.eqb Json.dquote Json.dquote) with true. cbv iota.
  rewrite string_body_escape. reflexivity.
Qed.

Lemma value_space fuel s : Json.value fuel (String " " s) = Json.value fuel s.
Proof. destruct fuel; reflexivity. Qed.

Lemma string_body_encoded k tl :
  Json.string_body ((Json.escape k ++ String Json.dquote EmptyString) ++ tl) = Some (k, tl).
Proof. rewrite append_assoc. apply string_body_escape. Qed.

(** Reading the key and the colon of a member. *)
Lemma members_unfold fuel k tl :
  Json.members (S fuel) (Json.encode_str k ++ ": " ++ tl) =
  match Json.value fuel tl with
  | None => None
  | Some (v, rest3) =>
      match Json.skip_ws rest3 with
      | EmptyString => None
      | String sep rest4 =>
          if Ascii.eqb sep "}" then Some ([(k, v)], rest4)
          else if Ascii.eqb sep "," then
            match Json.members fuel rest4 with
            | Some (d, rest5) => Some ((k, v) :: d, rest5)
            | None => None
            end
          else None
      end
  end.
Proof.
  cbn [Json.members].
  change (Json.skip_ws (Json.encode_str k ++ ": " ++ tl))
    with (String Json.dquote
            ((Json.escape k ++ String Json.dquote EmptyString) ++ ": " ++ tl)).
  cbv iota. change (Ascii.eqb Json.dquote Json.dquote) with true. cbv iota.
  rewrite string_body_encoded.
  change (Json.skip_ws (": " ++ tl)) with (String ":" (String " " tl)).
  cbv iota. change (Ascii.eqb ":" ":") with true. cbv iota.
  rewrite value_space. reflexivity.
Qed.

Lemma members_last fuel k x tl rest :
  Json.value fuel tl = Some (x, String "}" rest) ->
  Json.members (S fuel) (Json.encode_str k ++ ": " ++ tl) = Some ([(k, x)], rest).
Proof.
  intros Hv. rewrite members_unfold, Hv. reflexivity.
Qed.

Lemma members_space fuel s : Json.members fuel (String " " s) = Json.members fuel s.
Proof. destruct fuel; reflexivity. Qed.

Lemma members_more fuel k x tl more l rest :
  Json.value fuel tl = Some (x, ", " ++ more) ->
  Json.members fuel more = Some (l, rest) ->
  Json.members (S fuel) (Json.encode_str k ++ ": " ++ tl) = Some ((k, x) :: l, rest).
Proof.
  intros Hv Hm. rewrite members_unfold, Hv.
  change (Json.skip_ws (", " ++ more)) with (String "," (String " " more)).
  cbv iota. change (Ascii.eqb "," "}") with false.
  change (Ascii.eqb "," ",") with true. cbv iota.
  rewrite members_space, Hm. reflexivity.
Qed.

Lemma value_object fuel ms l rest :
  Json.members fuel (String Json.dquote ms) = Some (l, rest) ->
  Json.value (S fuel) (String "{" (String Json.dquote ms))
  = Some (PDict (Dict.of_pairs l), rest).
Proof.
  intros Hm. cbn [Json.value].
  change (Json.skip_ws (String "{" (String Json.dquote ms)))
    with (String "{" (String Json.dquote ms)).
  cbv iota. change (Ascii.eqb "{" Json.dquote) with false.
  change (Ascii.eqb "{" "{") with true. cbv iota.
  change (Json.skip_ws (String Json.dquote ms)) with (String Json.dquote ms).
  cbv iota. change (Ascii.eqb Json.dquote "}") with false. cbv iota.
  rewrite Hm. reflexivity.
Qed.

Lemma value_full_report fuel ts a d rest :
  Json.value (7 + fuel) (Json.dumps (full_report ts a d) ++ rest) = Some (full_report ts a d, rest).
Proof.
  unfold full_report. cbn [Json.dumps].
  rewrite !append_assoc.
  refine (value_object (6 + fuel) _
            [("timestamp", PStr ts);
             ("services", PDict [("api_gateway", PStr a); ("dynamodb", PStr d)])]
            rest _).
  eapply (members_more (5 + fuel) "timestamp" (PStr ts)).
  - apply value_encode_str.
  - eapply (members_last (4 + fuel) "services").
    refine (value_object (3 + fuel) _
              [("api_gateway", PStr a); ("dynamodb", PStr d)] _ _).
    eapply (members_more (2 + fuel) "api_gateway" (PStr a)).
    + apply value_encode_str.
    + eapply (members_last (1 + fuel) "dynamodb"). apply value_encode_str.
Qed.

Lemma append_nil_r (s : string) : s ++ EmptyString = s.
Proof. induction s as [|c s IH]; simpl; [reflexivity | now rewrite IH]. Qed.

Lemma loads_report ts a d :
  Json.loads (Json.dumps (full_report ts a d)) = Some (full_report ts a d).
Proof.
  unfold Json.loads.
  assert (Hlen : exists fuel, String.length (Json.dumps (full_report ts a d)) = (7 + fuel)%nat)
    by (eexists; reflexivity).
  destruct Hlen as [fuel ->].
  rewrite <- (append_nil_r (Json.dumps (full_report ts a d))) at 1.
  rewrite value_full_report. reflexivity.
Qed.

(** Identifies the reply named in a hypothesis with the logged one. *)
Ltac same_reply :=
  repeat match goal with
    | H : inr _ = inr _ |- _ => injection H as H; subst; simpl in *
    | H : inl _ = inl _ |- _ => injection H as H; subst; simpl in *
    | H : inl _ = inr _ |- _ => discriminate H
    | H : inr _ = inl _ |- _ => discriminate H
    end.

(** Case analysis on membership in a log that has been computed. *)
Ltac in_log H :=
  cbn in H;
  repeat match type of H with
    | _ \/ _ => destruct H as [H|H]
    | False => destruct H
    | _ = _ => first [discriminate H | injection H as H; subst]
    end.


Section Properties.

Context {W Client : Type}.
Variable env : World W Client.
Variable cloudwatch : Client.
Context {Event Context : Type}.
Variables (event : Event) (context : Context).

Local Abbreviation run := (invoke env cloudwatch event context).

Lemma Ok_inj {A : Type} (a b : A) : Ok a = Ok b -> a = b.
Proof. now injection 1. Qed.

Lemma Raised_inj {A : Type} (a b : exn) : @Raised A a = Raised b -> a = b.
Proof. now injection 1. Qed.

Lemma py_eq_str_true (v : pyval) (s : string) :
  py_eq_str v s = true <-> v = PStr s.
Proof.
  destruct v as [z|s'|d]; simpl.
  - split; intros H; discriminate H.
  - rewrite String.eqb_eq. split; [now intros -> | now injection 1].
  - split; intros H; discriminate H.
Qed.

(** One pass of the metrics loop body: a clock reading, then the metric
  call for the item; the item's call is the one [emits] describes. *)
Lemma emit_metric_emits (item : string * pyval) (t : datetime) (r : exn + unit) :
  emits cloudwatch item
    (EvPutMetricData cloudwatch "Bvester/Health"
       [mkDatum (fst item ++ "_health")
          (if py_eq_str (snd item) "healthy" then 1 else 0) "None" t] r).
Proof.
  exists (if py_eq_str (snd item) "healthy" then 1 else 0), t, r.
  split; [reflexivity|].
  destruct (py_eq_str (snd item) "healthy") eqn:E.
  - left. split; [now apply py_eq_str_true | reflexivity].
  - right. split; [|reflexivity].
    intros H. apply py_eq_str_true in H. congruence.
Qed.

(** The metrics loop, for any mapping it is run over: it leaves
  [health_status] alone and appends to the log; when it completes it has
  made exactly one metric call per item, in order, none of which raised;
  when it raises, the last thing it did is the metric call that raised. *)
Lemma emit_loop (pairs : list (string * pyval)) :
  forall (s s' : state W Client) (r : result unit),
    for_each pairs (emit_metric env cloudwatch) s = (r, s') ->
    health_status s' = health_status s /\
    exists evs,
      trace s' = (trace s ++ evs)%list /\
      match r with
      | Ok _ =>
          Forall2 (emits cloudwatch) pairs (metric_calls evs) /\
          Forall (fun e => raised_by e = None) evs
      | Raised x =>
          exists evs0 last,
            evs = (evs0 ++ [last])%list /\ is_put last = true /\
            raised_by last = Some x
      end.
Proof.
  induction pairs as [|[service status] pairs IH]; intros s s' r Hrun.
  - injection Hrun as <- <-. split; [reflexivity|].
    exists []. rewrite app_nil_r. repeat constructor.
  - cbn [for_each] in Hrun. unfold bind at 1 in Hrun.
    destruct (emit_metric env cloudwatch (service, status) s) as [o s1] eqn:Hbody.
    revert Hbody. unfold emit_metric, now, call, bind, ret. cbn.
    destruct (datetime_now env (world s)) as [t w1]. cbn.
    destruct (put_metric_data env cloudwatch _ _ w1) as [[x|[]] w2]; cbn;
      intros Hbody; injection Hbody as <- <-.
    + injection Hrun as <- <-. split; [reflexivity|].
      eexists. split; [rewrite <- app_assoc; reflexivity|].
      eexists [EvNow t], _. repeat split.
    + apply IH in Hrun. destruct Hrun as [Hhs [evs [Htr Hr]]].
      split; [exact Hhs|].
      eexists. split; [rewrite Htr; cbn; rewrite <- !app_assoc; reflexivity|].
      destruct r as [u|x].
      * destruct Hr as [Hall Hok]. split.
        -- cbn. constructor; [|exact Hall].
           apply (emit_metric_emits (service, status)).
        -- repeat constructor. exact Hok.
      * destruct Hr as [evs0 [last [-> [Hput Hx]]]].
        eexists (_ :: _ :: evs0), last. repeat split; assumption.
Qed.

(** C1.  In every invocation exactly one HTTP call is made, the GET of
  the health URL, and the [api_gateway] entry of the report follows its
  outcome: [healthy] when it answers with status 200, [degraded] when it
  answers with any other status, [unhealthy] when it raises. *)
Theorem api_gateway_entry (w : W) :
  exists r,
    filter is_http (trace (snd (run w))) = [EvHttpRequest "GET" health_url r] /\
    (forall resp, r = inr resp -> status resp = 200 ->
       reported (snd (run w)) "api_gateway" = Some (PStr "healthy")) /\
    (forall resp, r = inr resp -> status resp <> 200 ->
       reported (snd (run w)) "api_gateway" = Some (PStr "degraded")) /\
    (forall e, r = inl e ->
       reported (snd (run w)) "api_gateway" = Some (PStr "unhealthy")).
Proof.
  run_handler.
  all: eexists; split; [reflexivity|].
  all: repeat split; intros; same_reply; try reflexivity; try contradiction.
Qed.

(** C3.  When the invocation returns normally, the log holds exactly one
  metric call per entry of the [services] mapping, in the order of the
  mapping and two in all: each goes to the namespace [Bvester/Health],
  carries one datum named [<service>_health], and that datum's value is
  1 when the entry is [healthy] and 0 for anything else ([degraded] and
  [unhealthy] alike), so it is always 0 or 1. *)
Theorem metrics_emitted (w : W) (v : pyval) :
  fst (run w) = Ok v ->
  Forall2 (emits cloudwatch)
    (services_of (snd (run w))) (metric_calls (trace (snd (run w)))) /\
  length (services_of (snd (run w))) = 2%nat /\
  length (metric_calls (trace (snd (run w)))) = 2%nat /\
  Forall binary_valued (metric_calls (trace (snd (run w)))).
Proof.
  run_checks.
  all: try discriminate.
  all: match goal with
       | |- context [for_each ?l ?f ?s] =>
           destruct (for_each l f s) as [[[]|x] s5] eqn:Hloop
       end; cbn; try discriminate.
  all: apply emit_loop in Hloop; cbn -[isoformat] in Hloop.
  all: destruct Hloop as [Hhs [evs [Htr [Hall Hok]]]].
  all: rewrite Hhs; cbn -[isoformat Json.dumps]; intros _.
  all: unfold services_of; rewrite Hhs, Htr; cbn.
  all: fold (metric_calls evs).
  all: repeat split; try exact Hall.
  all: try (apply Forall2_length in Hall; cbn in Hall; congruence).
  all: clear -Hall; induction Hall as [|? ? ? ? [val [t [r [-> Hval]]]]]; constructor; auto.
  all: cbn; constructor; [|constructor]; cbn; destruct Hval as [[_ ->]|[_ ->]]; auto.
Qed.



(** C4.  When the invocation returns normally, the returned mapping is
  [statusCode: 200] with, under [body], the JSON encoding of the report
  the handler holds at that point, whatever the statuses in it. *)
Theorem returns_200_with_report (w : W) (v : pyval) :
  fst (run w) = Ok v ->
  exists report,
    health_status (snd (run w)) = Some report /\
    v = PDict [("statusCode", PInt 200); ("body", PStr (Json.dumps report))] /\
    getitem v "statusCode" = Ok (PInt 200) /\
    getitem v "body" = Ok (PStr (Json.dumps report)).
Proof.
  run_handler.
  all: intros Hret; try discriminate Hret; injection Hret as <-.
  all: eexists; repeat split.
Qed.

(** C5.  When the invocation returns normally, the returned body parses
  to a mapping with exactly the keys [timestamp] and [services]; under
  [services] is a mapping with exactly the keys [api_gateway] and
  [dynamodb], each holding one of the three statuses. *)
Theorem body_is_full_report (w : W) (v : pyval) :
  fst (run w) = Ok v ->
  exists body d sv,
    getitem v "body" = Ok (PStr body) /\
    Json.loads body = Some (PDict d) /\
    Dict.keys d = ["timestamp"; "services"] /\
    Dict.get d "services" = Some (PDict sv) /\
    Dict.keys sv = ["api_gateway"; "dynamodb"] /\
    Forall (fun kv => is_status (snd kv)) sv.
Proof.
  run_handler.
  all: intros Hret; try discriminate Hret; apply Ok_inj in Hret; subst v.
  all: match goal with
       | |- context [Json.dumps (PDict [("timestamp", PStr ?ts);
              ("services", PDict [("api_gateway", PStr ?a);
                                  ("dynamodb", PStr ?d)])])] =>
           eexists _, _, _; split; [reflexivity|];
           split; [exact (loads_report ts a d)|]
       end.
  all: repeat split.
  all: repeat (apply Forall_cons || apply Forall_nil).
  all: unfold is_status; cbn; auto.
Qed.


(** C7.  When a metric call raises, nothing catches it: the invocation
  ends with that exception and returns no value. *)
Theorem metric_error_propagates (w : W) (c : Client) (ns : string)
    (data : list metric_datum) (e : exn) :
  In (EvPutMetricData c ns data (inl e)) (trace (snd (run w))) ->
  fst (run w) = Raised e /\ (forall v, fst (run w) <> Ok v).
Proof.
  run_handler.
  all: intros Hin; in_log Hin.
  all: split; [reflexivity | discriminate].
Qed.

(** C8.  The handler does not look at its arguments: with the same
  world, any other event and context, of any types, give the same
  outcome, the same calls and the same final state. *)
Theorem event_and_context_ignored (Event' Context' : Type)
    (event' : Event') (context' : Context') (w : W) :
  invoke env cloudwatch event' context' w = run w.
Proof.
  reflexivity.
Qed.

(** C9.  When building the DynamoDB client raises, the exception leaves
  the handler: the run ends there, after the clock reading and the HTTP
  call, with [api_gateway] recorded, no [dynamodb] entry, no
  describe-table call and no metric call. *)
Theorem client_error_propagates (w : W) (e : exn) :
  In (EvBoto3Client "dynamodb" (inl e)) (trace (snd (run w))) ->
  fst (run w) = Raised e /\
  (exists t0 r,
     trace (snd (run w))
     = [EvNow t0; EvHttpRequest "GET" health_url r;
        EvBoto3Client "dynamodb" (inl e)]) /\
  (exists a, reported (snd (run w)) "api_gateway" = Some a /\ is_status a) /\
  reported (snd (run w)) "dynamodb" = None.
Proof.
  run_handler.
  all: intros Hin; in_log Hin.
  all: split; [reflexivity|]; split; [eexists _, _; reflexivity|].
  all: split; [|reflexivity].
  all: eexists; split; [reflexivity | unfold is_status; auto].
Qed.

(** C10.  The outbound calls of an invocation are an initial part of
  [call_order]: the HTTP GET, then the describe-table call, then the
  [api_gateway] metric, then the [dynamodb] metric.  The run stops after
  one, three or four of them; it made all four when it returns
  normally; and as soon as a metric call is in the log both entries of
  the report are recorded. *)
Theorem calls_in_order (w : W) :
  exists n,
    (n = 1 \/ n = 3 \/ n = 4)%nat /\
    outbound_calls (trace (snd (run w))) = firstn n call_order /\
    (forall v, fst (run w) = Ok v -> n = 4%nat) /\
    ((3 <= n)%nat ->
     exists a d,
       services_of (snd (run w)) = [("api_gateway", a); ("dynamodb", d)] /\
       is_status a /\ is_status d).
Proof.
  run_handler.
  all: first
    [ exists 1%nat; split; [tauto|]; split; [reflexivity|];
      split; [discriminate | lia]
    | exists 3%nat; split; [tauto|]; split; [reflexivity|];
      split; [discriminate|]
    | exists 4%nat; split; [tauto|]; split; [reflexivity|];
      split; [reflexivity|] ].
  all: intros _; eexists _, _; split; [reflexivity|].
  all: unfold is_status; auto.
Qed.

End Properties.

(** ** The properties on scripted runs *)

Lemma api_gateway_entry_witness :
  reported (snd (Scripted.run Scripted.gateway_503)) "api_gateway"
  = Some (PStr "degraded").
Proof.
  destruct (api_gateway_entry (Scripted.env Scripted.gateway_503) "cloudwatch"
              (PDict []) tt Scripted.start) as [r [Hlog [_ [Hdeg _]]]].
  apply (Hdeg (mkResponse 503)).
  - vm_compute in Hlog. injection Hlog as <-. reflexivity.
  - discriminate.
Defined.


Lemma metrics_emitted_witness :
  fst (Scripted.run Scripted.gateway_503)
  = Ok (Scripted.expected "degraded" "healthy") /\
  Forall2 (emits "cloudwatch")
    (services_of (snd (Scripted.run Scripted.gateway_503)))
    (metric_calls (trace (snd (Scripted.run Scripted.gateway_503)))) /\
  length (metric_calls (trace (snd (Scripted.run Scripted.gateway_503))))
  = 2%nat.
Proof.
  split; [reflexivity|].
  destruct (metrics_emitted (Scripted.env Scripted.gateway_503) "cloudwatch"
              (PDict []) tt Scripted.start
              (Scripted.expected "degraded" "healthy") eq_refl)
    as [Hall [_ [Hlen _]]].
  split; [exact Hall | exact Hlen].
Defined.

Lemma returns_200_with_report_witness :
  fst (Scripted.run Scripted.all_down)
  = Ok (Scripted.expected "unhealthy" "unhealthy") /\
  getitem (Scripted.expected "unhealthy" "unhealthy") "statusCode"
  = Ok (PInt 200).
Proof.
  split; [reflexivity|].
  destruct (returns_200_with_report (Scripted.env Scripted.all_down)
              "cloudwatch" (PDict []) tt Scripted.start
              (Scripted.expected "unhealthy" "unhealthy") eq_refl)
    as [report [_ [_ [Hcode _]]]].
  exact Hcode.
Defined.

Lemma body_is_full_report_witness :
  fst (Scripted.run Scripted.gateway_down)
  = Ok (Scripted.expected "unhealthy" "healthy") /\
  exists body d sv,
    getitem (Scripted.expected "unhealthy" "healthy") "body" = Ok (PStr body) /\
    Json.loads body = Some (PDict d) /\
    Dict.keys d = ["timestamp"; "services"] /\
    Dict.get d "services" = Some (PDict sv) /\
    Dict.keys sv = ["api_gateway"; "dynamodb"] /\
    Forall (fun kv => is_status (snd kv)) sv.
Proof.
  split; [reflexivity|].
  exact (body_is_full_report (Scripted.env Scripted.gateway_down) "cloudwatch"
           (PDict []) tt Scripted.start
           (Scripted.expected "unhealthy" "healthy") eq_refl).
Defined.



Lemma metric_error_propagates_witness :
  In (EvPutMetricData "cloudwatch" "Bvester/Health"
        [mkDatum "dynamodb_health" 1 "None" (mkDatetime 2024 1 15 12 0 2 0)]
        (inl Scripted.throttled))
     (trace (snd (Scripted.run Scripted.metrics_down))) /\
  fst (Scripted.run Scripted.metrics_down) = Raised Scripted.throttled.
Proof.
  assert (Hin : In (EvPutMetricData "cloudwatch" "Bvester/Health"
        [mkDatum "dynamodb_health" 1 "None" (mkDatetime 2024 1 15 12 0 2 0)]
        (inl Scripted.throttled))
     (trace (snd (Scripted.run Scripted.metrics_down))))
    by (cbn; tauto).
  split; [exact Hin|].
  exact (proj1 (metric_error_propagates (Scripted.env Scripted.metrics_down)
                  "cloudwatch" (PDict []) tt Scripted.start _ _ _ _ Hin)).
Defined.

Lemma client_error_propagates_witness :
  In (EvBoto3Client "dynamodb" (inl Scripted.no_region))
     (trace (snd (Scripted.run Scripted.no_client))) /\
  fst (Scripted.run Scripted.no_client) = Raised Scripted.no_region /\
  reported (snd (Scripted.run Scripted.no_client)) "dynamodb" = None.
Proof.
  assert (Hin : In (EvBoto3Client "dynamodb" (inl Scripted.no_region))
                   (trace (snd (Scripted.run Scripted.no_client))))
    by (cbn; tauto).
  split; [exact Hin|].
  destruct (client_error_propagates (Scripted.env Scripted.no_client)
              "cloudwatch" (PDict []) tt Scripted.start _ Hin)
    as [Hret [_ [_ Hnone]]].
  split; [exact Hret | exact Hnone].
Defined.

Lemma calls_in_order_witness :
  outbound_calls (trace (snd (Scripted.run Scripted.all_up))) = call_order.
Proof.
  destruct (calls_in_order (Scripted.env Scripted.all_up) "cloudwatch"
              (PDict []) tt Scripted.start) as [n [_ [Hcalls [Hfull _]]]].
  unfold Scripted.run.
  rewrite Hcalls, (Hfull (Scripted.expected "healthy" "healthy") eq_refl).
  reflexivity.
Defined.

(** * Further properties of the handler *)

(** Enumerates the ways a computed log splits as [pre ++ ev :: post]. *)
Ltac split_log H pre :=
  repeat (destruct pre as [|? pre];
          [ cbn in H; first [discriminate H | injection H as H ?; subst]
          | cbn in H; first [discriminate H | injection H as ? H; subst] ]).

(** ** Dict assignment and lookup *)

Lemma get_set_same (d : Dict.t) (k : string) (v : pyval) :
  Dict.get (Dict.set d k v) k = Some v.
Proof.
  induction d as [|[k' v'] d IH]; cbn.
  - now rewrite String.eqb_refl.
  - destruct (String.eqb k' k) eqn:E; cbn; rewrite E; [reflexivity | exact IH].
Qed.

Lemma get_set_other (d : Dict.t) (k k' : string) (v : pyval) :
  k' <> k -> Dict.get (Dict.set d k v) k' = Dict.get d k'.
Proof.
  intros Hne. induction d as [|[k0 v0] d IH]; cbn.
  - destruct (String.eqb_spec k k'); [congruence | reflexivity].
  - destruct (String.eqb_spec k0 k) as [->|Hk]; cbn.
    + destruct (String.eqb_spec k k'); [congruence | reflexivity].
    + destruct (String.eqb k0 k'); [reflexivity | exact IH].
Qed.

Lemma keys_set_present (d : Dict.t) (k : string) (v : pyval) :
  Dict.get d k <> None -> Dict.keys (Dict.set d k v) = Dict.keys d.
Proof.
  induction d as [|[k' v'] d IH]; cbn; intros Hin.
  - congruence.
  - destruct (String.eqb k' k) eqn:E; cbn; [reflexivity|].
    unfold Dict.keys in IH. now rewrite IH.
Qed.

Lemma keys_set_absent (d : Dict.t) (k : string) (v : pyval) :
  Dict.get d k = None -> Dict.keys (Dict.set d k v) = (Dict.keys d ++ [k])%list.
Proof.
  induction d as [|[k' v'] d IH]; cbn; intros Hout.
  - reflexivity.
  - destruct (String.eqb k' k) eqn:E; [discriminate Hout|]. cbn.
    unfold Dict.keys in IH. now rewrite IH.
Qed.

(** ** Strings that need no escape *)

Lemma escape_char_plain (c : ascii) :
  is_plain c = true -> Json.escape_char c = String c EmptyString.
Proof.
  destruct c as [[] [] [] [] [] [] [] []]; intros H;
    first [discriminate H | reflexivity].
Qed.

Lemma escape_plain (s : string) : all_plain s = true -> Json.escape s = s.
Proof.
  induction s as [|c s IH]; cbn [all_plain Json.escape]; intros H.
  - reflexivity.
  - apply andb_prop in H. destruct H as [Hc Hs].
    rewrite (escape_char_plain c Hc), (IH Hs). reflexivity.
Qed.

Lemma all_plain_app (a b : string) :
  all_plain a = true -> all_plain b = true -> all_plain (a ++ b) = true.
Proof.
  intros Ha Hb. induction a as [|c a IH]; cbn in *; [exact Hb|].
  apply andb_prop in Ha. destruct Ha as [Hc Ha].
  now rewrite Hc, (IH Ha).
Qed.

Lemma all_plain_zeros (n : nat) : all_plain (zeros n) = true.
Proof. induction n as [|n IH]; [reflexivity | exact IH]. Qed.

Lemma all_plain_digits (u : Decimal.uint) :
  all_plain (NilEmpty.string_of_uint u) = true.
Proof. induction u; cbn; auto. Qed.

Lemma all_plain_pad (width : nat) (n : N) : all_plain (pad width n) = true.
Proof.
  unfold pad. apply all_plain_app; [apply all_plain_zeros|].
  unfold NilZero.string_of_uint.
  destruct (N.to_uint n); try reflexivity; apply all_plain_digits.
Qed.

(** An ISO timestamp is made of digits and of [-], [T], [:] and [.]. *)
Lemma all_plain_isoformat (d : datetime) : all_plain (isoformat d) = true.
Proof.
  unfold isoformat.
  repeat (apply all_plain_app; [first [apply all_plain_pad | reflexivity]|]).
  destruct (N.eqb (microsecond d) 0); [reflexivity|].
  apply all_plain_app; [reflexivity | apply all_plain_pad].
Qed.

Lemma dumps_full_report_plain (ts a d : string) :
  all_plain ts = true -> all_plain a = true -> all_plain d = true ->
  Json.dumps (full_report ts a d) = report_text ts a d.
Proof.
  intros Hts Ha Hd. unfold full_report, report_text, quoted.
  cbn [Json.dumps]. unfold Json.encode_str.
  rewrite (escape_plain ts Hts), (escape_plain a Ha), (escape_plain d Hd).
  cbn. repeat (rewrite append_assoc; cbn). reflexivity.
Qed.

Section MoreProperties.

Context {W Client : Type}.
Variable env : World W Client.
Variable cloudwatch : Client.
Context {Event Context : Type}.
Variables (event : Event) (context : Context).

Local Abbreviation run := (invoke env cloudwatch event context).

Lemma Some_inj {A : Type} (a b : A) : Some a = Some b -> a = b.
Proof. now injection 1. Qed.


(** X2.  Decoding the returned body gives back the very report the
  handler holds when it returns: nothing is lost or altered by the
  encoding, whatever the clock reading was. *)
Theorem body_decodes_to_report (w : W) (v : pyval) :
  fst (run w) = Ok v ->
  exists body,
    getitem v "body" = Ok (PStr body) /\
    Json.loads body = health_status (snd (run w)).
Proof.
  run_handler.
  all: intros Hret; try discriminate Hret; apply Ok_inj in Hret; subst v.
  all: match goal with
       | |- context [Json.dumps (PDict [("timestamp", PStr ?ts);
              ("services", PDict [("api_gateway", PStr ?a);
                                  ("dynamodb", PStr ?d)])])] =>
           eexists; split; [reflexivity | exact (loads_report ts a d)]
       end.
Qed.

(** X3.  A run that returns normally is made of exactly eight steps, in
  this order: clock, HTTP GET, DynamoDB client, describe-table on that
  client, clock, [api_gateway] metric, clock, [dynamodb] metric.  Each
  call is made once (nothing is retried); both metric calls go through
  the [cloudwatch] client to [Bvester/Health] and completed; each
  carries the one datum named after its service, with unit [None], the
  clock reading just before it, and the value 1 when the service is
  reported [healthy] and 0 otherwise. *)
Theorem normal_run_log (w : W) (v : pyval) :
  fst (run w) = Ok v ->
  exists t0 r c rd t1 v1 t2 v2,
    trace (snd (run w))
    = [EvNow t0;
       EvHttpRequest "GET" health_url r;
       EvBoto3Client "dynamodb" (inr c);
       EvDescribeTable c "bvester-users" rd;
       EvNow t1;
       EvPutMetricData cloudwatch "Bvester/Health"
         [mkDatum "api_gateway_health" v1 "None" t1] (inr tt);
       EvNow t2;
       EvPutMetricData cloudwatch "Bvester/Health"
         [mkDatum "dynamodb_health" v2 "None" t2] (inr tt)] /\
    ((v1 = 1 /\ reported (snd (run w)) "api_gateway" = Some (PStr "healthy")) \/
     (v1 = 0 /\ reported (snd (run w)) "api_gateway" <> Some (PStr "healthy"))) /\
    ((v2 = 1 /\ reported (snd (run w)) "dynamodb" = Some (PStr "healthy")) \/
     (v2 = 0 /\ reported (snd (run w)) "dynamodb" <> Some (PStr "healthy"))).
Proof.
  run_handler.
  all: intros Hret; try discriminate Hret.
  all: eexists _, _, _, _, _, _, _, _; split; [reflexivity|].
  all: split; first [left; split; reflexivity
                    | right; split; [reflexivity | discriminate]].
Qed.

(** X4.  The [dynamodb] entry is never [degraded]: it is [healthy] or
  [unhealthy] when present, and it is absent exactly when building the
  DynamoDB client raised.  The [api_gateway] entry is present in every
  invocation. *)
Theorem entries_of_every_run (w : W) :
  (reported (snd (run w)) "dynamodb" = None <->
   exists e, In (EvBoto3Client "dynamodb" (inl e)) (trace (snd (run w)))) /\
  (forall x, reported (snd (run w)) "dynamodb" = Some x ->
     x = PStr "healthy" \/ x = PStr "unhealthy") /\
  (exists a, reported (snd (run w)) "api_gateway" = Some a /\ is_status a).
Proof.
  run_handler.
  all: split; [split; [intros Hnone | intros [x Hin]] | split;
         [intros x Hsome | ]].
  all: try discriminate Hnone.
  all: try solve [eexists; cbn; eauto 6].
  all: try solve [in_log Hin].
  all: try reflexivity.
  all: try solve [cbn in Hsome; discriminate Hsome].
  all: try solve [apply Some_inj in Hsome; subst x; auto].
  all: try solve [eexists; split; [reflexivity | unfold is_status; auto]].
Qed.

(** X5.  Every metric carries its own time of emission: wherever a
  metric call stands in the log, the step just before it is a clock
  reading, and the [Timestamp] of its datum is that reading (not the
  timestamp of the report). *)
Theorem metric_stamped_at_emission (w : W)
    (pre post : list (log_entry Client)) (c : Client) (ns : string)
    (data : list metric_datum) (r : exn + unit) :
  trace (snd (run w)) = (pre ++ EvPutMetricData c ns data r :: post)%list ->
  exists pre' t,
    pre = (pre' ++ [EvNow t])%list /\
    Forall (fun d => Timestamp d = t) data.
Proof.
  run_handler.
  all: intros Hlog; split_log Hlog pre.
  all: try solve [eexists [_; _; _; _], _; split; [reflexivity | repeat constructor]].
  all: try solve [eexists [_; _; _; _; _; _], _; split; [reflexivity | repeat constructor]].
Qed.

(** X6.  Nothing is done after a call that raised outside a check: when
  building the DynamoDB client or a metric call raises, that call is
  the last step of the run and the invocation ends with its exception.
  In particular the [dynamodb] metric is not attempted once the
  [api_gateway] metric has raised. *)
Theorem stops_at_first_uncaught (w : W)
    (pre post : list (log_entry Client)) (ev : log_entry Client) (e : exn) :
  trace (snd (run w)) = (pre ++ ev :: post)%list ->
  is_check ev = false ->
  raised_by ev = Some e ->
  post = [] /\ fst (run w) = Raised e.
Proof.
  run_handler.
  all: intros Hlog Hcheck Hraised; split_log Hlog pre.
  all: try discriminate Hraised; try discriminate Hcheck.
  all: apply Some_inj in Hraised; subst; split; reflexivity.
Qed.

(** X7.  The metrics loop over any mapping, of any size and with any
  values: it makes the metric calls of an initial part of the mapping,
  in the order of the mapping, each named [<key>_health]; it covers the
  whole mapping when it completes (no call at all for an empty one) and
  at least one item when it raises, the raising call being its last
  step; it never touches [health_status]. *)
Theorem metrics_loop_prefix (pairs : list (string * pyval)) :
  forall (s s' : state W Client) (r : result unit),
    for_each pairs (emit_metric env cloudwatch) s = (r, s') ->
    exists evs n,
      trace s' = (trace s ++ evs)%list /\
      health_status s' = health_status s /\
      outbound_calls evs
      = map (fun kv => OutMetric "Bvester/Health" [fst kv ++ "_health"])
            (firstn n pairs) /\
      (n <= length pairs)%nat /\
      (forall u, r = Ok u -> n = length pairs) /\
      (forall x, r = Raised x ->
         (0 < n)%nat /\
         exists evs0 last,
           evs = (evs0 ++ [last])%list /\ is_put last = true /\
           raised_by last = Some x).
Proof.
  induction pairs as [|[service status] pairs IH]; intros s s' r Hrun.
  - injection Hrun as <- <-. exists [], 0%nat. cbn. rewrite app_nil_r.
    do 3 (split; [reflexivity|]). split; [lia|].
    split; [reflexivity | intros x Hx; discriminate Hx].
  - cbn [for_each] in Hrun. unfold bind at 1 in Hrun.
    destruct (emit_metric env cloudwatch (service, status) s) as [o s1] eqn:Hbody.
    revert Hbody. unfold emit_metric, now, call, bind, ret. cbn.
    destruct (datetime_now env (world s)) as [t w1]. cbn.
    destruct (put_metric_data env cloudwatch _ _ w1) as [[x|[]] w2]; cbn;
      intros Hbody; injection Hbody as <- <-.
    + injection Hrun as <- <-.
      eexists [_; _], 1%nat. cbn. rewrite <- app_assoc. cbn.
      do 3 (split; [reflexivity|]). split; [lia|].
      split; [intros u Hu; discriminate Hu|].
      intros x' Hx'. apply Raised_inj in Hx'. subst x'.
      split; [lia|]. eexists [_], _. repeat split.
    + apply IH in Hrun.
      destruct Hrun as [evs [n [Htr [Hhs [Hout [Hle [Hok Hbad]]]]]]].
      cbn in Htr, Hhs.
      eexists (_ :: _ :: evs), (S n). rewrite Htr, Hhs.
      unfold outbound_calls in *. cbn.
      rewrite <- !app_assoc. cbn. rewrite Hout.
      do 3 (split; [reflexivity|]). split; [lia|].
      split.
      * intros u Hu. rewrite (Hok u Hu). reflexivity.
      * intros x Hx. split; [lia|].
        destruct (Hbad x Hx) as [_ [evs0 [last [-> [Hput Hlast]]]]].
        eexists (_ :: _ :: evs0), last. repeat split; assumption.
Qed.

(** X8.  Recording a status, [health_status['services'][k] = v], on a
  report that has a [services] mapping: it succeeds without calling
  out; afterwards [k] reads back as [v] and every other service reads
  as before; a service already recorded is overwritten in place, a new
  one goes last (the order the metrics loop follows); the other keys of
  the report, [timestamp] among them, are untouched. *)
Theorem set_service_records (s : state W Client) (hs sv : Dict.t)
    (k v : string) :
  health_status s = Some (PDict hs) ->
  Dict.get hs "services" = Some (PDict sv) ->
  exists s' hs',
    set_service k v s = (Ok tt, s') /\
    world s' = world s /\ trace s' = trace s /\
    health_status s' = Some (PDict hs') /\
    reported s' k = Some (PStr v) /\
    (forall k', k' <> k -> reported s' k' = reported s k') /\
    (Dict.get sv k <> None -> Dict.keys (services_of s') = Dict.keys sv) /\
    (Dict.get sv k = None ->
       Dict.keys (services_of s') = (Dict.keys sv ++ [k])%list) /\
    Dict.keys hs' = Dict.keys hs /\
    (forall key, key <> "services" -> Dict.get hs' key = Dict.get hs key).
Proof.
  intros Hhs Hsv.
  pose (hs' := Dict.set hs "services" (PDict (Dict.set sv k (PStr v)))).
  exists (mkState (world s) (trace s) (Some (PDict hs'))), hs'.
  assert (Hsv' : services_of (mkState (world s) (trace s) (Some (PDict hs')))
                 = Dict.set sv k (PStr v)).
  { unfold services_of, hs'. cbn [health_status]. now rewrite get_set_same. }
  assert (Hold : services_of s = sv).
  { unfold services_of. now rewrite Hhs, Hsv. }
  split.
  { unfold set_service, bind, load_health_status, lift, store_health_status.
    rewrite Hhs. cbn [getitem setitem]. rewrite Hsv. reflexivity. }
  do 3 (split; [reflexivity|]).
  unfold reported. rewrite Hsv', Hold.
  split; [apply get_set_same|].
  split; [intros k' Hne; now apply get_set_other|].
  split; [apply keys_set_present|].
  split; [apply keys_set_absent|].
  split; [apply keys_set_present; congruence|].
  intros key Hne. now apply get_set_other.
Qed.

(** X9.  Recording a status succeeds exactly when [health_status] is
  bound to a mapping whose [services] entry is a mapping; in every
  other case it raises and leaves the state as it was. *)
Theorem set_service_needs_mapping (s : state W Client) (k v : string) :
  ((exists s', set_service k v s = (Ok tt, s')) <->
   (exists hs sv, health_status s = Some (PDict hs) /\
                  Dict.get hs "services" = Some (PDict sv))) /\
  (forall e s', set_service k v s = (Raised e, s') -> s' = s).
Proof.
  unfold set_service, bind, load_health_status, lift, store_health_status.
  destruct (health_status s) as [[z|str|hs]|] eqn:Hhs; cbn.
  4: { split; [split|].
       - intros [s' H]; discriminate H.
       - intros [hs [sv [H _]]]; discriminate H.
       - intros e s' H. now injection H. }
  1, 2: split; [split|];
    [ intros [s' H]; discriminate H
    | intros [hs [sv [H _]]]; discriminate H
    | intros e s' H; now injection H ].
  destruct (Dict.get hs "services") as [[z|str|sv]|] eqn:Hsv; cbn.
  3: { split; [split|].
       - intros _. now exists hs, sv.
       - intros _. eexists. reflexivity.
       - intros e s' H; discriminate H. }
  all: split; [split|];
    [ intros [s' H]; discriminate H
    | intros [hs' [sv' [H1 H2]]]; apply Some_inj in H1;
      injection H1 as <-; rewrite Hsv in H2; discriminate H2
    | intros e s' H; now injection H ].
Qed.

(** X10.  The text of the body.  When the invocation returns normally
  the body is, character for character, an object with [timestamp]
  first and [services] second, [api_gateway] before [dynamodb], one
  space after each colon and comma, and the ISO timestamp of the first
  clock reading written as it stands: no character of it is escaped. *)
Theorem body_text (w : W) (v : pyval) :
  fst (run w) = Ok v ->
  exists t0 rest a d,
    trace (snd (run w)) = EvNow t0 :: rest /\
    is_status (PStr a) /\ is_status (PStr d) /\
    getitem v "body" = Ok (PStr (report_text (isoformat t0) a d)).
Proof.
  run_handler.
  all: intros Hret; try discriminate Hret; apply Ok_inj in Hret; subst v.
  all: match goal with
       | |- context [Json.dumps (PDict [("timestamp", PStr (isoformat ?t));
              ("services", PDict [("api_gateway", PStr ?a);
                                  ("dynamodb", PStr ?d)])])] =>
           exists t; eexists; exists a, d;
           split; [reflexivity|];
           split; [unfold is_status; auto|];
           split; [unfold is_status; auto|];
           exact (f_equal (fun b => Ok (PStr b))
                    (dumps_full_report_plain (isoformat t) a d
                       (all_plain_isoformat t) eq_refl eq_refl))
       end.
Qed.

End MoreProperties.

(** ** The further properties on scripted runs *)

Lemma body_decodes_to_report_witness :
  fst (Scripted.run Scripted.gateway_503)
  = Ok (Scripted.expected "degraded" "healthy") /\
  exists body,
    getitem (Scripted.expected "degraded" "healthy") "body" = Ok (PStr body) /\
    Json.loads body = health_status (snd (Scripted.run Scripted.gateway_503)).
Proof.
  split; [reflexivity|].
  exact (body_decodes_to_report (Scripted.env Scripted.gateway_503)
           "cloudwatch" (PDict []) tt Scripted.start
           (Scripted.expected "degraded" "healthy") eq_refl).
Defined.

Lemma normal_run_log_witness :
  fst (Scripted.run Scripted.gateway_503)
  = Ok (Scripted.expected "degraded" "healthy") /\
  exists t0 r c rd t1 v1 t2 v2,
    trace (snd (Scripted.run Scripted.gateway_503))
    = [EvNow t0;
       EvHttpRequest "GET" health_url r;
       EvBoto3Client "dynamodb" (inr c);
       EvDescribeTable c "bvester-users" rd;
       EvNow t1;
       EvPutMetricData "cloudwatch" "Bvester/Health"
         [mkDatum "api_gateway_health" v1 "None" t1] (inr tt);
       EvNow t2;
       EvPutMetricData "cloudwatch" "Bvester/Health"
         [mkDatum "dynamodb_health" v2 "None" t2] (inr tt)] /\
    ((v1 = 1 /\
      reported (snd (Scripted.run Scripted.gateway_503)) "api_gateway"
      = Some (PStr "healthy")) \/
     (v1 = 0 /\
      reported (snd (Scripted.run Scripted.gateway_503)) "api_gateway"
      <> Some (PStr "healthy"))) /\
    ((v2 = 1 /\
      reported (snd (Scripted.run Scripted.gateway_503)) "dynamodb"
      = Some (PStr "healthy")) \/
     (v2 = 0 /\
      reported (snd (Scripted.run Scripted.gateway_503)) "dynamodb"
      <> Some (PStr "healthy"))).
Proof.
  split; [reflexivity|].
  exact (normal_run_log (Scripted.env Scripted.gateway_503) "cloudwatch"
           (PDict []) tt Scripted.start
           (Scripted.expected "degraded" "healthy") eq_refl).
Defined.

Lemma metric_stamped_at_emission_witness :
  trace (snd (Scripted.run Scripted.all_up))
  = (firstn 5 (trace (snd (Scripted.run Scripted.all_up)))
     ++ Samples.api_gateway_metric
     :: skipn 6 (trace (snd (Scripted.run Scripted.all_up))))%list /\
  exists pre' t,
    firstn 5 (trace (snd (Scripted.run Scripted.all_up)))
    = (pre' ++ [EvNow t])%list /\
    Forall (fun d => Timestamp d = t)
      [mkDatum "api_gateway_health" 1 "None" Samples.second_reading].
Proof.
  split; [reflexivity|].
  exact (metric_stamped_at_emission (Scripted.env Scripted.all_up)
           "cloudwatch" (PDict []) tt Scripted.start
           (firstn 5 (trace (snd (Scripted.run Scripted.all_up))))
           (skipn 6 (trace (snd (Scripted.run Scripted.all_up))))
           "cloudwatch" "Bvester/Health"
           [mkDatum "api_gateway_health" 1 "None" Samples.second_reading]
           (inr tt) eq_refl).
Defined.

Lemma stops_at_first_uncaught_witness :
  trace (snd (Scripted.run Scripted.metrics_down))
  = (firstn 7 (trace (snd (Scripted.run Scripted.metrics_down)))
     ++ Samples.dynamodb_metric (inl Scripted.throttled)
     :: skipn 8 (trace (snd (Scripted.run Scripted.metrics_down))))%list /\
  is_check (Samples.dynamodb_metric (inl Scripted.throttled)) = false /\
  raised_by (Samples.dynamodb_metric (inl Scripted.throttled))
  = Some Scripted.throttled /\
  skipn 8 (trace (snd (Scripted.run Scripted.metrics_down))) = [] /\
  fst (Scripted.run Scripted.metrics_down) = Raised Scripted.throttled.
Proof.
  split; [reflexivity|]. split; [reflexivity|]. split; [reflexivity|].
  exact (stops_at_first_uncaught (Scripted.env Scripted.metrics_down)
           "cloudwatch" (PDict []) tt Scripted.start
           (firstn 7 (trace (snd (Scripted.run Scripted.metrics_down))))
           (skipn 8 (trace (snd (Scripted.run Scripted.metrics_down))))
           (Samples.dynamodb_metric (inl Scripted.throttled))
           Scripted.throttled eq_refl eq_refl eq_refl).
Defined.

Lemma set_service_records_witness :
  health_status (snd (Scripted.run Scripted.no_client))
  = Some (PDict Samples.partial_report) /\
  Dict.get Samples.partial_report "services"
  = Some (PDict Samples.partial_services) /\
  exists s',
    set_service "dynamodb" "unhealthy" (snd (Scripted.run Scripted.no_client))
    = (Ok tt, s') /\
    reported s' "dynamodb" = Some (PStr "unhealthy") /\
    reported s' "api_gateway" = Some (PStr "healthy") /\
    Dict.keys (services_of s') = ["api_gateway"; "dynamodb"].
Proof.
  split; [reflexivity|]. split; [reflexivity|].
  destruct (set_service_records (snd (Scripted.run Scripted.no_client))
              Samples.partial_report Samples.partial_services
              "dynamodb" "unhealthy" eq_refl eq_refl)
    as [s' [hs' [Hrun [_ [_ [_ [Hnew [Hold [_ [Hlast _]]]]]]]]]].
  exists s'. split; [exact Hrun|]. split; [exact Hnew|].
  split.
  - rewrite (Hold "api_gateway"); [reflexivity | discriminate].
  - exact (Hlast eq_refl).
Defined.

Lemma body_text_witness :
  fst (Scripted.run Scripted.gateway_down)
  = Ok (Scripted.expected "unhealthy" "healthy") /\
  exists t0 rest a d,
    trace (snd (Scripted.run Scripted.gateway_down)) = EvNow t0 :: rest /\
    is_status (PStr a) /\ is_status (PStr d) /\
    getitem (Scripted.expected "unhealthy" "healthy") "body"
    = Ok (PStr (report_text (isoformat t0) a d)).
Proof.
  split; [reflexivity|].
  exact (body_text (Scripted.env Scripted.gateway_down) "cloudwatch"
           (PDict []) tt Scripted.start
           (Scripted.expected "unhealthy" "healthy") eq_refl).
Defined.

Lemma metrics_loop_prefix_witness :
  for_each [("cache", PStr "healthy"); ("queue", PStr "degraded");
            ("mail", PStr "healthy")]
    (emit_metric (Scripted.env Scripted.metrics_down) "cloudwatch")
    (mkState Scripted.start [] None)
  = (Raised Scripted.throttled,
     snd (for_each [("cache", PStr "healthy"); ("queue", PStr "degraded");
                    ("mail", PStr "healthy")]
            (emit_metric (Scripted.env Scripted.metrics_down) "cloudwatch")
            (mkState Scripted.start [] None))) /\
  exists (evs : list (log_entry string)) n,
    outbound_calls evs
    = map (fun kv => OutMetric "Bvester/Health" [fst kv ++ "_health"])
          (firstn n [("cache", PStr "healthy"); ("queue", PStr "degraded");
                     ("mail", PStr "healthy")]) /\
    (0 < n <= 3)%nat.
Proof.
  split; [reflexivity|].
  destruct (metrics_loop_prefix (Scripted.env Scripted.metrics_down)
              "cloudwatch"
              [("cache", PStr "healthy"); ("queue", PStr "degraded");
               ("mail", PStr "healthy")]
              (mkState Scripted.start [] None) _ _ eq_refl)
    as [evs [n [_ [_ [Hout [Hle [_ Hbad]]]]]]].
  exists evs, n. split; [exact Hout|].
  split; [exact (proj1 (Hbad Scripted.throttled eq_refl)) | exact Hle].
Defined.
